(** * querystring: typed accessors over a request's query string

    Shallow embedding of [src/parsers.py] ([parser_datetime]) and
    [src/query.py] ([get_str], [get_boolean], [get_int], [get_list],
    [get_datetime], [get_datetime_range]).

    Modelling conventions.
    - Python [str] values are Rocq [string]s over 8-bit characters (the
      Latin-1 part of Unicode); character predicates ([isspace], [lower],
      [\d]) follow Python on that range.
    - Python is dynamically typed: defaults, converted values and results
      are the values of [pyval]; a call either returns ([Ok]) or raises
      ([Raise]) one of the exceptions of [exn].
    - [datetime.datetime.strptime] and [datetime.strftime] are embedded for
      the directives %Y %m %d %H %M %S %f and %%, following CPython's
      [_strptime] (a regular expression built from the format, matched with
      backtracking, then the fields checked by the [datetime] constructor)
      and glibc's [strftime] (which stops at the first NUL character of the
      format).  The other directives CPython knows (%a %b %j %y %z ...)
      are outside the embedding and raise [Unmodelled].
    - [int(s)] skips the whitespace CPython skips (ASCII \t \n \v \f \r and
      space, and the non-ASCII whitespace) and refuses more than 4300
      digits. *)

From Stdlib Require Import String Ascii List ZArith Bool Lia.
Import ListNotations.

Open Scope Z_scope.
Set Warnings "-register-all,-abstract-large-number".

(** ** Python values and exceptions *)

Record datetime := mk_datetime {
  dt_year : Z;
  dt_month : Z;
  dt_day : Z;
  dt_hour : Z;
  dt_minute : Z;
  dt_second : Z;
  dt_microsecond : Z;
  dt_aware : bool   (* tzinfo attached by [timezone.make_aware] *)
}.

Inductive pyval :=
| PNone
| PBool (b : bool)
| PInt (z : Z)
| PStr (s : string)
| PList (l : list pyval)
| PTuple (l : list pyval)
| PDatetime (d : datetime).

Inductive exn :=
| ValueError (msg : string)
| ReError (msg : string)    (* re.error raised while compiling a pattern *)
| Unmodelled.               (* a strptime/strftime directive outside the embedding *)

Inductive result (A : Type) :=
| Ok (a : A)
| Raise (e : exn).
Arguments Ok {A} a.
Arguments Raise {A} e.

Definition bind {A B} (m : result A) (k : A -> result B) : result B :=
  match m with
  | Ok a => k a
  | Raise e => Raise e
  end.

Notation "'let*' x ':=' m 'in' k" := (bind m (fun x => k))
  (at level 200, x name, m at level 100, k at level 200).

(** Python truthiness ([if align:]). *)
Definition py_truthy (v : pyval) : bool :=
  match v with
  | PNone => false
  | PBool b => b
  | PInt z => negb (z =? 0)
  | PStr s => negb (String.eqb s EmptyString)
  | PList l | PTuple l => negb (Nat.eqb (List.length l) 0)
  | PDatetime _ => true
  end.

(** [v == s] for a Python value [v] and a string literal [s]. *)
Definition py_eq_str (v : pyval) (s : string) : bool :=
  match v with
  | PStr s' => String.eqb s' s
  | _ => false
  end.

(** ** Characters *)

Definition code (c : ascii) : nat := nat_of_ascii c.

(** [str.isspace] / regex [\s] on the 8-bit range. *)
Definition isspace (c : ascii) : bool :=
  let n := code c in
  ((9 <=? n) && (n <=? 13))%nat || ((28 <=? n) && (n <=? 32))%nat
  || (n =? 133)%nat || (n =? 160)%nat.

(** [\d] on the 8-bit range: the ASCII digits. *)
Definition isdigit (c : ascii) : bool :=
  let n := code c in ((48 <=? n) && (n <=? 57))%nat.

Definition digit_val (c : ascii) : Z := Z.of_nat (code c) - 48.

(** [str.lower] on the 8-bit range. *)
Definition lower_char (c : ascii) : ascii :=
  let n := code c in
  if ((65 <=? n) && (n <=? 90))%nat
     || ((192 <=? n) && (n <=? 222) && negb (n =? 215))%nat
  then ascii_of_nat (n + 32) else c.

(** ** Python string operations *)

Definition los := list_ascii_of_string.
Definition sol := string_of_list_ascii.

Fixpoint drop_space (l : list ascii) : list ascii :=
  match l with
  | c :: r => if isspace c then drop_space r else l
  | [] => []
  end.

(** [s.strip()] *)
Definition strip_l (l : list ascii) : list ascii :=
  rev (drop_space (rev (drop_space l))).
Definition py_strip (s : string) : string := sol (strip_l (los s)).

(** [s.lower()] *)
Definition py_lower (s : string) : string := sol (map lower_char (los s)).

Fixpoint is_prefix (p l : list ascii) : bool :=
  match p, l with
  | [], _ => true
  | a :: p', b :: l' => Ascii.eqb a b && is_prefix p' l'
  | _ :: _, [] => false
  end.

(** [sub in s] *)
Fixpoint contains_l (sub l : list ascii) : bool :=
  is_prefix sub l ||
  match l with
  | [] => false
  | _ :: l' => contains_l sub l'
  end.
Definition py_contains (s sub : string) : bool := contains_l (los sub) (los s).

(** [s.split(sep)] for a non-empty [sep]: the pieces between the
    non-overlapping occurrences of [sep], scanned from the left.  [skip]
    counts the characters of a found separator still to be passed. *)
Fixpoint split_go (sep l cur : list ascii) (skip : nat) : list (list ascii) :=
  match l with
  | [] => [rev cur]
  | c :: l' =>
      match skip with
      | S k => split_go sep l' cur k
      | O => if is_prefix sep l
             then rev cur :: split_go sep l' [] (List.length sep - 1)
             else split_go sep l' (c :: cur) O
      end
  end.

Definition py_split (s sep : string) : result (list string) :=
  match los sep with
  | [] => Raise (ValueError "empty separator")
  | _ => Ok (map sol (split_go (los sep) (los s) [] O))
  end.

(** ** [int(s)] for a [str] in base 10

    Surrounding whitespace is stripped, one optional sign, then decimal
    digits in which single underscores may separate digits. *)
Fixpoint digits_us (acc : Z) (prev_digit : bool) (l : list ascii) : option Z :=
  match l with
  | [] => if prev_digit then Some acc else None
  | c :: r =>
      if isdigit c then digits_us (10 * acc + digit_val c) true r
      else if Ascii.eqb c "_" && prev_digit then digits_us acc false r
      else None
  end.

Definition parse_signed (l : list ascii) : option Z :=
  match l with
  | c :: r =>
      if Ascii.eqb c "-" then option_map Z.opp (digits_us 0 false r)
      else if Ascii.eqb c "+" then digits_us 0 false r
      else digits_us 0 false l
  | [] => digits_us 0 false l
  end.

(** The whitespace [int()] strips: ASCII \t \n \v \f \r and space are kept
    as they are and skipped, a non-ASCII whitespace character is first
    turned into a space; the ASCII separators U+001C..U+001F are not
    skipped. *)
Definition int_space (c : ascii) : bool :=
  let n := code c in
  ((9 <=? n) && (n <=? 13))%nat || (n =? 32)%nat || (n =? 133)%nat || (n =? 160)%nat.

Fixpoint drop_int_space (l : list ascii) : list ascii :=
  match l with
  | c :: r => if int_space c then drop_int_space r else l
  | [] => []
  end.

Definition int_strip (l : list ascii) : list ascii :=
  rev (drop_int_space (rev (drop_int_space l))).

(** The number of digits, checked against [sys.get_int_max_str_digits()]
    (4300 by default) for a base-10 conversion. *)
Definition count_digits (l : list ascii) : nat := List.length (filter isdigit l).

Definition int_max_str_digits : nat := 4300.

Definition py_int (s : string) : result Z :=
  match parse_signed (int_strip (los s)) with
  | Some z =>
      if (count_digits (los s) <=? int_max_str_digits)%nat then Ok z
      else Raise (ValueError "Exceeds the limit (4300 digits) for integer string conversion")
  | None => Raise (ValueError "invalid literal for int() with base 10")
  end.

(** ** [datetime.datetime] *)

Definition is_leap (y : Z) : bool :=
  (Z.modulo y 4 =? 0) && (negb (Z.modulo y 100 =? 0) || (Z.modulo y 400 =? 0)).

Definition days_in_month (y m : Z) : Z :=
  if (m =? 2) then (if is_leap y then 29 else 28)
  else if (m =? 4) || (m =? 6) || (m =? 9) || (m =? 11) then 30
  else 31.

(** The range checks of [datetime(year, month, day, hour, minute, second,
    microsecond)] (MINYEAR = 1, MAXYEAR = 9999). *)
Definition valid_datetime (d : datetime) : bool :=
  (1 <=? dt_year d) && (dt_year d <=? 9999)
  && (1 <=? dt_month d) && (dt_month d <=? 12)
  && (1 <=? dt_day d) && (dt_day d <=? days_in_month (dt_year d) (dt_month d))
  && (0 <=? dt_hour d) && (dt_hour d <=? 23)
  && (0 <=? dt_minute d) && (dt_minute d <=? 59)
  && (0 <=? dt_second d) && (dt_second d <=? 59)
  && (0 <=? dt_microsecond d) && (dt_microsecond d <=? 999999).

Definition datetime_new (y mo d h mi s us : Z) : result datetime :=
  let r := mk_datetime y mo d h mi s us false in
  if valid_datetime r then Ok r
  else Raise (ValueError "datetime field out of range").

(** [dt.replace(hour=h, minute=mi, second=s)] *)
Definition replace_hms (d : datetime) (h mi s : Z) : datetime :=
  mk_datetime (dt_year d) (dt_month d) (dt_day d) h mi s
              (dt_microsecond d) (dt_aware d).

(** [django.utils.timezone.make_aware(value)] with the default time zone:
    the wall-clock fields are kept and the zone is attached; an aware
    value is refused. *)
Definition make_aware (d : datetime) : result datetime :=
  if dt_aware d then Raise (ValueError "Not naive datetime (tzinfo is already set)")
  else Ok (mk_datetime (dt_year d) (dt_month d) (dt_day d) (dt_hour d)
                       (dt_minute d) (dt_second d) (dt_microsecond d) true).

(** The naive wall-clock part of a timestamp. *)
Definition naive (d : datetime) : datetime :=
  mk_datetime (dt_year d) (dt_month d) (dt_day d) (dt_hour d)
              (dt_minute d) (dt_second d) (dt_microsecond d) false.

(** ** Format directives *)

Inductive dir := DY | Dm | Dd | DH | DM | DS | Df.

Definition dir_eqb (a b : dir) : bool :=
  match a, b with
  | DY, DY | Dm, Dm | Dd, Dd | DH, DH | DM, DM | DS, DS | Df, Df => true
  | _, _ => false
  end.

(** A lexed format: a directive, a literal character (also the [%] of
    [%%]) or a whitespace character. *)
Inductive tok := TDir (d : dir) | TLit (c : ascii) | TSp (c : ascii).

(** The directive letters CPython's [_strptime] knows besides the
    embedded ones. *)
Definition other_directives : list ascii :=
  los "aAbBcIjpUwWxXyzZGuV:".

Definition directive_tok (c : ascii) : result tok :=
  if Ascii.eqb c "Y" then Ok (TDir DY)
  else if Ascii.eqb c "m" then Ok (TDir Dm)
  else if Ascii.eqb c "d" then Ok (TDir Dd)
  else if Ascii.eqb c "H" then Ok (TDir DH)
  else if Ascii.eqb c "M" then Ok (TDir DM)
  else if Ascii.eqb c "S" then Ok (TDir DS)
  else if Ascii.eqb c "f" then Ok (TDir Df)
  else if Ascii.eqb c "%" then Ok (TLit "%")
  else if existsb (Ascii.eqb c) other_directives then Raise Unmodelled
  else Raise (ValueError "bad directive in format").

(** [TimeRE.pattern]: directives are looked up left to right; a [%] at
    the end is a stray [%]; a [%] before a whitespace or a regex special
    character (which [pattern] has already rewritten to [\s+] or escaped
    with [\]) is a bad directive. *)
Fixpoint lex (f : list ascii) : result (list tok) :=
  match f with
  | [] => Ok []
  | c :: f' =>
      if Ascii.eqb c "%" then
        match f' with
        | [] => Raise (ValueError "stray % in format")
        | c' :: f'' =>
            let* t := directive_tok c' in
            let* ts := lex f'' in
            Ok (t :: ts)
        end
      else
        let* ts := lex f' in
        Ok ((if isspace c then TSp c else TLit c) :: ts)
  end.

Fixpoint dirs_of (ts : list tok) : list dir :=
  match ts with
  | [] => []
  | TDir d :: ts' => d :: dirs_of ts'
  | _ :: ts' => dirs_of ts'
  end.

Fixpoint has_dup (l : list dir) : bool :=
  match l with
  | [] => false
  | d :: l' => existsb (dir_eqb d) l' || has_dup l'
  end.

(** ** The regular expression of a format

    Each directive becomes a named group whose alternatives (in the order
    the regex engine tries them) are sequences of character classes;
    literals match ignoring case; a run of whitespace becomes [\s+]. *)

Inductive cclass := CDigit | CRange (lo hi : ascii) | CChar (c : ascii).

Definition cmatch (k : cclass) (c : ascii) : bool :=
  match k with
  | CDigit => isdigit c
  | CRange lo hi => ((code lo <=? code c) && (code c <=? code hi))%nat
  | CChar c' => Ascii.eqb c c'
  end.

(** The alternatives of [TimeRE]:
    d: [3[0-1]|[1-2]\d|0[1-9]|[1-9]| [1-9]], f: [[0-9]{1,6}] (greedy),
    H: [2[0-3]|[0-1]\d|\d], m: [1[0-2]|0[1-9]|[1-9]], M: [[0-5]\d|\d],
    S: [6[0-1]|[0-5]\d|\d], Y: [\d\d\d\d]. *)
Definition dir_alts (d : dir) : list (list cclass) :=
  match d with
  | Dd => [[CChar "3"; CRange "0" "1"]; [CRange "1" "2"; CDigit];
           [CChar "0"; CRange "1" "9"]; [CRange "1" "9"];
           [CChar " "; CRange "1" "9"]]
  | Df => [repeat CDigit 6; repeat CDigit 5; repeat CDigit 4;
           repeat CDigit 3; repeat CDigit 2; [CDigit]]
  | DH => [[CChar "2"; CRange "0" "3"]; [CRange "0" "1"; CDigit]; [CDigit]]
  | Dm => [[CChar "1"; CRange "0" "2"]; [CChar "0"; CRange "1" "9"];
           [CRange "1" "9"]]
  | DM => [[CRange "0" "5"; CDigit]; [CDigit]]
  | DS => [[CChar "6"; CRange "0" "1"]; [CRange "0" "5"; CDigit]; [CDigit]]
  | DY => [[CDigit; CDigit; CDigit; CDigit]]
  end.

Inductive piece := PDir (d : dir) | PLit (c : ascii) | PWS.

Fixpoint compile_go (prev_ws : bool) (ts : list tok) : list piece :=
  match ts with
  | [] => []
  | TSp _ :: ts' => if prev_ws then compile_go true ts'
                    else PWS :: compile_go true ts'
  | TLit c :: ts' => PLit c :: compile_go false ts'
  | TDir d :: ts' => PDir d :: compile_go false ts'
  end.

Fixpoint match_seq (p : list cclass) (s : list ascii)
  : option (list ascii * list ascii) :=
  match p with
  | [] => Some ([], s)
  | k :: p' =>
      match s with
      | c :: s' =>
          if cmatch k c then
            match match_seq p' s' with
            | Some (m, r) => Some (c :: m, r)
            | None => None
            end
          else None
      | [] => None
      end
  end.

Fixpoint ws_run (l : list ascii) : nat :=
  match l with
  | c :: l' => if isspace c then S (ws_run l') else O
  | [] => O
  end.

Fixpoint first_some {A B} (f : A -> option B) (l : list A) : option B :=
  match l with
  | [] => None
  | a :: l' => match f a with Some b => Some b | None => first_some f l' end
  end.

(** [re.match]: the first successful path of the backtracking search;
    the match need not reach the end of the data.  The result lists the
    groups' texts and what follows the match. *)
Fixpoint match_pieces (ps : list piece) (s : list ascii)
  : option (list (dir * list ascii) * list ascii) :=
  match ps with
  | [] => Some ([], s)
  | PDir d :: ps' =>
      first_some
        (fun alt =>
           match match_seq alt s with
           | Some (m, s') =>
               match match_pieces ps' s' with
               | Some (cs, r) => Some ((d, m) :: cs, r)
               | None => None
               end
           | None => None
           end)
        (dir_alts d)
  | PLit c :: ps' =>
      match s with
      | c' :: s' =>
          if Ascii.eqb (lower_char c) (lower_char c') then match_pieces ps' s'
          else None
      | [] => None
      end
  | PWS :: ps' =>
      (fix greedy (k : nat) :=
         match k with
         | O => None
         | S k' =>
             match match_pieces ps' (skipn k s) with
             | Some r => Some r
             | None => greedy k'
             end
         end) (ws_run s)
  end.

(** ** [datetime.datetime.strptime(value, format)] *)

Fixpoint assoc_dir (d : dir) (cs : list (dir * list ascii)) : option (list ascii) :=
  match cs with
  | [] => None
  | (d', m) :: cs' => if dir_eqb d d' then Some m else assoc_dir d cs'
  end.

(** [int(found_dict[key])], or the default when the group is absent. *)
Definition field (cs : list (dir * list ascii)) (d : dir) (dflt : Z) : result Z :=
  match assoc_dir d cs with
  | None => Ok dflt
  | Some m => py_int (sol m)
  end.

(** [%f]: the digits are right-padded with zeros to six. *)
Definition fraction (cs : list (dir * list ascii)) : result Z :=
  match assoc_dir Df cs with
  | None => Ok 0
  | Some m => py_int (sol (m ++ repeat "0"%char (6 - List.length m)))
  end.

(** The fields of [_strptime] with their defaults (1900-01-01 00:00:00),
    then the [datetime] constructor.  (For a format without a year asking
    for February 29, [_strptime] computes with 1904 and hands 1900 to the
    constructor, which refuses it, as here.) *)
Definition build (cs : list (dir * list ascii)) : result datetime :=
  let* year := field cs DY 1900 in
  let* month := field cs Dm 1 in
  let* day := field cs Dd 1 in
  let* hour := field cs DH 0 in
  let* minute := field cs DM 0 in
  let* second := field cs DS 0 in
  let* us := fraction cs in
  datetime_new year month day hour minute second us.

Definition strptime_l (data fmt : list ascii) : result datetime :=
  let* ts := lex fmt in
  if has_dup (dirs_of ts) then Raise (ReError "redefinition of group name")
  else
    match match_pieces (compile_go false ts) data with
    | None => Raise (ValueError "time data does not match format")
    | Some (cs, []) => build cs
    | Some (_, _ :: _) => Raise (ValueError "unconverted data remains")
    end.

Definition py_strptime (value format : string) : result datetime :=
  strptime_l (los value) (los format).

(** ** [dt.strftime(format)] *)

Definition digit_char (z : Z) : ascii := ascii_of_nat (48 + Z.to_nat z).

(** [w] decimal digits of [n], zero-padded. *)
Fixpoint pad_dec (w : nat) (n : Z) : list ascii :=
  match w with
  | O => []
  | S w' => pad_dec w' (n / 10) ++ [digit_char (n mod 10)]
  end.







(** ** [parsers.parser_datetime] *)

Definition default_format : string := "%Y-%m-%d %H:%M:%S".

Definition parser_datetime (value format : string) (align aware : pyval)
  : result datetime :=
  let* parsed := py_strptime value format in
  let parsed :=
    if py_eq_str align "start" then replace_hms parsed 0 0 0
    else if py_eq_str align "end" then replace_hms parsed 23 59 59
    else parsed in
  if py_truthy aware then make_aware parsed else Ok parsed.

(** ** The request

    [request.GET] is a [QueryDict]: the decoded (key, value) pairs of the
    query string in order; [GET.get(name)] is the last value given for
    [name], or [None]. *)
Record request := mk_request { GET : list (string * string) }.

Fixpoint query_get (q : list (string * string)) (name : string) : option string :=
  match q with
  | [] => None
  | (k, v) :: q' =>
      match query_get q' name with
      | Some v' => Some v'
      | None => if String.eqb k name then Some v else None
      end
  end.

(** The [type] argument of [get_list]: a callable applied to each piece. *)
Definition converter := string -> result pyval.

Definition str_conv : converter := fun s => Ok (PStr s).
Definition int_conv : converter := fun s => let* z := py_int s in Ok (PInt z).
Definition bool_conv : converter := fun s => Ok (PBool (negb (String.eqb s EmptyString))).

(** ** [query.py] *)

Definition get_str (request : request) (name : string) (default : pyval)
  : result pyval :=
  match query_get (GET request) name with
  | None => Ok default
  | Some value => Ok (PStr value)
  end.

Definition truthy_words : list string := ["true"; "t"; "yes"; "y"; "1"]%string.
Definition falsy_words : list string := ["false"; "f"; "no"; "n"; "0"]%string.

Definition get_boolean (request : request) (name : string) (default : pyval)
  : result pyval :=
  match query_get (GET request) name with
  | None => Ok default
  | Some value =>
      if existsb (String.eqb (py_lower value)) truthy_words then Ok (PBool true)
      else if existsb (String.eqb (py_lower value)) falsy_words then Ok (PBool false)
      else Ok default
  end.

Definition get_int (request : request) (name : string) (default : pyval)
    (raise_on_value_error : bool) : result pyval :=
  match query_get (GET request) name with
  | None => Ok default
  | Some value =>
      match py_int value with
      | Ok z => Ok (PInt z)
      | Raise (ValueError m) =>
          if raise_on_value_error then Raise (ValueError m) else Ok default
      | Raise e => Raise e
      end
  end.

(** The loop of [get_list] over the pieces, building [result_list]. *)
Fixpoint get_list_loop (type_ : converter) (raise_on_value_error : bool)
    (items : list string) : result (list pyval) :=
  match items with
  | [] => Ok []
  | item :: items' =>
      let item := py_strip item in
      if String.eqb item EmptyString then get_list_loop type_ raise_on_value_error items'
      else
        match type_ item with
        | Ok v =>
            let* rest := get_list_loop type_ raise_on_value_error items' in
            Ok (v :: rest)
        | Raise (ValueError m) =>
            if raise_on_value_error then Raise (ValueError m)
            else get_list_loop type_ raise_on_value_error items'
        | Raise e => Raise e
        end
  end.

Definition get_list (request : request) (name : string) (default : pyval)
    (type_ : converter) (delim : string) (raise_on_value_error : bool)
  : result pyval :=
  match query_get (GET request) name with
  | None => Ok default
  | Some value =>
      let* items := py_split value delim in
      let* l := get_list_loop type_ raise_on_value_error items in
      Ok (PList l)
  end.

Definition get_datetime (request : request) (name : string) (default : pyval)
    (format : string) (align aware : pyval) (raise_on_value_error : bool)
  : result pyval :=
  match query_get (GET request) name with
  | None => Ok default
  | Some value =>
      match parser_datetime value format align aware with
      | Ok d => Ok (PDatetime d)
      | Raise (ValueError m) =>
          if raise_on_value_error then Raise (ValueError m) else Ok default
      | Raise e => Raise e
      end
  end.

Definition get_datetime_range (request : request) (name : string) (default : pyval)
    (format delim : string) (align aware : pyval) (raise_on_value_error : bool)
  : result pyval :=
  match query_get (GET request) name with
  | None => Ok default
  | Some value =>
      if negb (py_contains value delim) then
        if raise_on_value_error
        then Raise (ValueError "datetime range value must contain a delim")
        else Ok (PTuple [default; default])
      else
        let* parts := py_split value delim in
        (* [start_value, end_value = value.split(delim)] *)
        match parts with
        | [start_value; end_value] =>
            (* [_align = "start" if align else None], never used *)
            let align_start := if py_truthy align then PStr "start" else PNone in
            match parser_datetime start_value format align aware with
            | Raise (ValueError m) =>
                if raise_on_value_error then Raise (ValueError m)
                else Ok (PTuple [default; default])
            | Raise e => Raise e
            | Ok start =>
                (* [_align = "end" if align else None], never used *)
                let align_end := if py_truthy align then PStr "end" else PNone in
                match parser_datetime end_value format align aware with
                | Raise (ValueError m) =>
                    if raise_on_value_error then Raise (ValueError m)
                    else Ok (PTuple [default; default])
                | Raise e => Raise e
                | Ok end_ => Ok (PTuple [PDatetime start; PDatetime end_])
                end
            end
        | _ :: _ :: _ :: _ => Raise (ValueError "too many values to unpack (expected 2)")
        | _ => Raise (ValueError "not enough values to unpack (expected 2)")
        end
  end.

(** ** Definitions used by the properties *)

Definition range_request : request :=
  mk_request [("period", "2024-01-01 10:00:00,2024-01-31 10:00:00")%string].

Definition int_request : request :=
  mk_request [("n", "-42"); ("x", "4.2")]%string.

(** The list accessor in the spec's words (default tier): the trimmed
    pieces, the empty ones dropped, each converted, the ones whose
    conversion fails dropped. *)
Definition list_by_spec (type_ : converter) (pieces : list string) : list pyval :=
  flat_map (fun p => match type_ p with Ok v => [v] | Raise _ => [] end)
    (filter (fun p => negb (String.eqb p EmptyString)) (map py_strip pieces)).

Definition list_request : request := mk_request [("ids", " 1, 2,,3 ")]%string.

Definition padded_request : request := mk_request [("n", " -007 ")]%string.

(** Case-insensitive equality with a lower-case word, in the spec's
    words: same length, and each character is the word's character or its
    upper-case form. *)
Definition upper_ascii (c : ascii) : ascii :=
  let n := code c in
  if ((97 <=? n) && (n <=? 122))%nat then ascii_of_nat (n - 32) else c.

Fixpoint case_variant (s w : list ascii) : bool :=
  match s, w with
  | [], [] => true
  | c :: s', x :: w' => (Ascii.eqb c x || Ascii.eqb c (upper_ascii x)) && case_variant s' w'
  | _, _ => false
  end.

Definition ci_equals (s w : string) : bool := case_variant (los s) (los w).

(** The characters of the accepted words. *)
Definition word_char (x : ascii) : bool := existsb (Ascii.eqb x) (los "truefalsyno01").






Definition dec_step (a : Z) (c : ascii) : Z := 10 * a + digit_val c.








(** * Properties *)

(** ** General lemmas *)

Lemma los_sol (l : list ascii) : los (sol l) = l.
Proof.
  induction l as [|c l IH]; [reflexivity|].
  unfold los, sol in *; simpl; now rewrite IH.
Qed.



Lemma bind_ok {A B} (a : A) (k : A -> result B) : bind (Ok a) k = k a.
Proof. reflexivity. Qed.

(** ** Absent parameters *)

(** C3: for every accessor, an absent key yields exactly the supplied
    default, whatever the strict flag and the other arguments. *)
Theorem absent_key_returns_default :
  forall (rq : request) (name : string) (default : pyval) (type_ : converter)
         (format delim : string) (align aware : pyval) (raise_on_value_error : bool),
    query_get (GET rq) name = None ->
    get_str rq name default = Ok default /\
    get_boolean rq name default = Ok default /\
    get_int rq name default raise_on_value_error = Ok default /\
    get_list rq name default type_ delim raise_on_value_error = Ok default /\
    get_datetime rq name default format align aware raise_on_value_error = Ok default /\
    get_datetime_range rq name default format delim align aware raise_on_value_error
      = Ok default.
Proof.
  intros rq name default type_ format delim align aware raise H.
  unfold get_str, get_boolean, get_int, get_list, get_datetime, get_datetime_range.
  rewrite H. repeat split.
Qed.

Lemma absent_key_returns_default_witness :
  query_get (GET (mk_request [("page", "2")%string])) "size" = None /\
  get_datetime_range (mk_request [("page", "2")%string]) "size" (PInt 7)
    default_format "," (PStr "start") (PBool true) true = Ok (PInt 7).
Proof.
  split; [reflexivity|].
  apply (absent_key_returns_default (mk_request [("page", "2")%string]) "size"
           (PInt 7) str_conv default_format "," (PStr "start") (PBool true) true).
  reflexivity.
Defined.

(** ** The datetime-range accessor *)

(** C1 (code defect): with [align="start"] both halves are aligned to
    00:00:00 (the per-half values [_align] are computed and not passed),
    and with [align=True] neither half is aligned. *)
Theorem range_align_not_per_half :
  get_datetime_range range_request "period" PNone default_format ","
    (PStr "start") (PBool false) false
  = Ok (PTuple [PDatetime (mk_datetime 2024 1 1 0 0 0 0 false);
                PDatetime (mk_datetime 2024 1 31 0 0 0 0 false)]) /\
  get_datetime_range range_request "period" PNone default_format ","
    (PBool true) (PBool false) false
  = Ok (PTuple [PDatetime (mk_datetime 2024 1 1 10 0 0 0 false);
                PDatetime (mk_datetime 2024 1 31 10 0 0 0 false)]).
Proof. split; vm_compute; reflexivity. Qed.

(** C2 (code defect): in the default tier, a value with the delimiter
    twice raises the unpacking [ValueError] instead of giving the
    defaults. *)
Theorem range_two_delims_raises :
  get_datetime_range
    (mk_request [("period", "2024-01-01 00:00:00,2024-01-02 00:00:00,2024-01-03 00:00:00")%string])
    "period" PNone default_format "," PNone (PBool false) false
  = Raise (ValueError "too many values to unpack (expected 2)").
Proof. vm_compute. reflexivity. Qed.

(** C7: in the default tier a returned value is a pair of two parsed
    timestamps (one per half) or a pair of two defaults. *)
Theorem range_default_tier_no_partial_pair :
  forall rq name default format delim align aware value v,
    query_get (GET rq) name = Some value ->
    get_datetime_range rq name default format delim align aware false = Ok v ->
    v = PTuple [default; default] \/
    exists start_value end_value s e,
      py_split value delim = Ok [start_value; end_value] /\
      parser_datetime start_value format align aware = Ok s /\
      parser_datetime end_value format align aware = Ok e /\
      v = PTuple [PDatetime s; PDatetime e].
Proof.
  intros rq name default format delim align aware value v Hq H.
  unfold get_datetime_range in H. rewrite Hq in H.
  destruct (negb (py_contains value delim)).
  { left. congruence. }
  destruct (py_split value delim) as [parts|e] eqn:Hs; [|discriminate].
  simpl in H.
  destruct parts as [|sv [|ev [|x rest]]]; try discriminate.
  destruct (parser_datetime sv format align aware) as [s|[m|m|]] eqn:H1;
    try (left; congruence); try discriminate.
  destruct (parser_datetime ev format align aware) as [e|[m|m|]] eqn:H2;
    try (left; congruence); try discriminate.
  right. exists sv, ev, s, e. repeat split; congruence.
Qed.

Lemma range_default_tier_no_partial_pair_witness :
  exists v,
    get_datetime_range range_request "period" PNone default_format ","
      PNone (PBool false) false = Ok v /\
    (v = PTuple [PNone; PNone] \/
     exists start_value end_value s e,
       py_split "2024-01-01 10:00:00,2024-01-31 10:00:00" "," = Ok [start_value; end_value] /\
       parser_datetime start_value default_format PNone (PBool false) = Ok s /\
       parser_datetime end_value default_format PNone (PBool false) = Ok e /\
       v = PTuple [PDatetime s; PDatetime e]).
Proof.
  eexists. split.
  - vm_compute. reflexivity.
  - apply (range_default_tier_no_partial_pair range_request "period" PNone
             default_format "," PNone (PBool false)
             "2024-01-01 10:00:00,2024-01-31 10:00:00"); [reflexivity|].
    vm_compute. reflexivity.
Defined.

(** ** The datetime parser *)

Lemma make_aware_fields (d d' : datetime) :
  make_aware d = Ok d' -> naive d' = naive d.
Proof.
  unfold make_aware. destruct (dt_aware d); [discriminate|].
  intros H. injection H as <-. reflexivity.
Qed.

Lemma parser_datetime_naive :
  forall value format align aware d,
    parser_datetime value format align aware = Ok d ->
    exists parsed,
      py_strptime value format = Ok parsed /\
      naive d = naive (if py_eq_str align "start" then replace_hms parsed 0 0 0
                       else if py_eq_str align "end" then replace_hms parsed 23 59 59
                       else parsed).
Proof.
  intros value format align aware d H.
  unfold parser_datetime in H.
  destruct (py_strptime value format) as [parsed|e]; [|discriminate].
  exists parsed. split; [reflexivity|]. simpl in H.
  destruct (py_truthy aware).
  - now apply make_aware_fields.
  - injection H as <-. reflexivity.
Qed.

(** C8: a successful parse with [align="start"] has time of day 00:00:00
    and with [align="end"] 23:59:59; the other fields are those of the
    parsed value. *)
Theorem parser_datetime_align_fields :
  forall value format aware d,
    (parser_datetime value format (PStr "start") aware = Ok d ->
     exists parsed, py_strptime value format = Ok parsed /\
       dt_hour d = 0 /\ dt_minute d = 0 /\ dt_second d = 0 /\
       dt_year d = dt_year parsed /\ dt_month d = dt_month parsed /\
       dt_day d = dt_day parsed /\ dt_microsecond d = dt_microsecond parsed) /\
    (parser_datetime value format (PStr "end") aware = Ok d ->
     exists parsed, py_strptime value format = Ok parsed /\
       dt_hour d = 23 /\ dt_minute d = 59 /\ dt_second d = 59 /\
       dt_year d = dt_year parsed /\ dt_month d = dt_month parsed /\
       dt_day d = dt_day parsed /\ dt_microsecond d = dt_microsecond parsed).
Proof.
  intros value format aware d. split; intros H;
    destruct (parser_datetime_naive _ _ _ _ _ H) as [parsed [Hp Hn]];
    exists parsed; split; try exact Hp; simpl in Hn;
    unfold naive in Hn; injection Hn; intros; repeat split; assumption.
Qed.

Lemma parser_datetime_align_fields_witness :
  parser_datetime "2024-01-05 13:45:22" default_format (PStr "start") (PBool true)
    = Ok (mk_datetime 2024 1 5 0 0 0 0 true) /\
  exists parsed, py_strptime "2024-01-05 13:45:22" default_format = Ok parsed /\
    0 = 0 /\ 0 = 0 /\ 0 = 0 /\ 2024 = dt_year parsed /\ 1 = dt_month parsed /\
    5 = dt_day parsed /\ 0 = dt_microsecond parsed.
Proof.
  split; [vm_compute; reflexivity|].
  apply (proj1 (parser_datetime_align_fields "2024-01-05 13:45:22" default_format
                  (PBool true) (mk_datetime 2024 1 5 0 0 0 0 true))).
  vm_compute. reflexivity.
Defined.

(** ** The integer accessor *)

Lemma drop_space_in (c : ascii) (l : list ascii) :
  isspace c = false -> In c l -> In c (drop_space l).
Proof.
  induction l as [|x l IH]; simpl; [tauto|].
  intros Hc [<-|Hin].
  - rewrite Hc. now left.
  - destruct (isspace x); [now apply IH|]. now right.
Qed.

Lemma strip_in (c : ascii) (l : list ascii) :
  isspace c = false -> In c l -> In c (strip_l l).
Proof.
  intros Hc Hin. unfold strip_l. rewrite <- in_rev.
  apply drop_space_in; [assumption|]. rewrite <- in_rev.
  now apply drop_space_in.
Qed.

Lemma digits_us_dot (acc : Z) (b : bool) (l : list ascii) :
  In "."%char l -> digits_us acc b l = None.
Proof.
  revert acc b. induction l as [|c l IH]; intros acc b Hin; [contradiction|].
  simpl. destruct Hin as [->|Hin].
  - reflexivity.
  - destruct (isdigit c); [now apply IH|].
    destruct (Ascii.eqb c "_" && b); [now apply IH|reflexivity].
Qed.

Lemma drop_int_space_in (c : ascii) (l : list ascii) :
  int_space c = false -> In c l -> In c (drop_int_space l).
Proof.
  induction l as [|x l IH]; simpl; [tauto|].
  intros Hc [<-|Hin].
  - rewrite Hc. now left.
  - destruct (int_space x); [now apply IH|]. now right.
Qed.

Lemma int_strip_in (c : ascii) (l : list ascii) :
  int_space c = false -> In c l -> In c (int_strip l).
Proof.
  intros Hc Hin. unfold int_strip. rewrite <- in_rev.
  apply drop_int_space_in; [assumption|]. rewrite <- in_rev.
  now apply drop_int_space_in.
Qed.

Lemma py_int_dot (s : string) :
  In "."%char (los s) -> exists m, py_int s = Raise (ValueError m).
Proof.
  intros Hin. unfold py_int.
  assert (Hs : In "."%char (int_strip (los s))) by (apply int_strip_in; [reflexivity|assumption]).
  destruct (int_strip (los s)) as [|c r] eqn:E; [contradiction|].
  unfold parse_signed.
  destruct (Ascii.eqb c "-") eqn:Em.
  - apply Ascii.eqb_eq in Em; subst c.
    destruct Hs as [Hc|Hs]; [discriminate|].
    rewrite digits_us_dot by assumption. eexists; reflexivity.
  - destruct (Ascii.eqb c "+") eqn:Ep.
    + apply Ascii.eqb_eq in Ep; subst c.
      destruct Hs as [Hc|Hs]; [discriminate|].
      rewrite digits_us_dot by assumption. eexists; reflexivity.
    + rewrite digits_us_dot by assumption. eexists; reflexivity.
Qed.

(** C5: "-42" gives -42; a value with a fractional part, such as "4.2",
    gives the default in the default tier and raises [ValueError] in the
    strict tier. *)
Theorem get_int_signed_no_fraction :
  (forall default raise_on_value_error,
     get_int int_request "n" default raise_on_value_error = Ok (PInt (-42))) /\
  (forall default, get_int int_request "x" default false = Ok default) /\
  (forall default, exists m, get_int int_request "x" default true = Raise (ValueError m)) /\
  (forall rq name value default,
     query_get (GET rq) name = Some value -> In "."%char (los value) ->
     get_int rq name default false = Ok default /\
     exists m, get_int rq name default true = Raise (ValueError m)).
Proof.
  split; [intros; reflexivity|].
  split; [intros; reflexivity|].
  split; [intros; eexists; reflexivity|].
  intros rq name value default Hq Hin.
  destruct (py_int_dot value Hin) as [m Hm].
  unfold get_int. rewrite Hq, Hm.
  split; [reflexivity|eexists; reflexivity].
Qed.

Lemma get_int_signed_no_fraction_witness :
  get_int int_request "x" (PInt 0) false = Ok (PInt 0) /\
  exists m, get_int int_request "x" (PInt 0) true = Raise (ValueError m).
Proof.
  apply (proj2 (proj2 (proj2 get_int_signed_no_fraction)) int_request "x"%string "4.2"%string);
    [reflexivity|].
  simpl. tauto.
Defined.

(** ** The list accessor *)

Lemma get_list_loop_default_tier (type_ : converter) (items : list string) :
  (forall s e, type_ s = Raise e -> exists m, e = ValueError m) ->
  get_list_loop type_ false items = Ok (list_by_spec type_ items).
Proof.
  intros Hconv. induction items as [|item items IH]; [reflexivity|].
  unfold list_by_spec in *. simpl.
  destruct (String.eqb (py_strip item) EmptyString); simpl; [exact IH|].
  destruct (type_ (py_strip item)) as [v|e] eqn:Ht.
  - rewrite IH. reflexivity.
  - destruct (Hconv _ _ Ht) as [m ->]. exact IH.
Qed.

Lemma int_conv_value_error (s : string) (e : exn) :
  int_conv s = Raise e -> exists m, e = ValueError m.
Proof.
  unfold int_conv, py_int.
  destruct (parse_signed (int_strip (los s)));
    [destruct (count_digits (los s) <=? int_max_str_digits)%nat|]; simpl; intros H;
    try discriminate; injection H as <-; eexists; reflexivity.
Qed.

(** C6: splitting on the delimiter, trimming, dropping empty pieces and
    converting each remaining one; on " 1, 2,,3 " with [int] and ","
    the result is [1, 2, 3]. *)
Theorem get_list_split_trim_convert :
  (forall default raise_on_value_error,
     get_list list_request "ids" default int_conv "," raise_on_value_error
     = Ok (PList [PInt 1; PInt 2; PInt 3])) /\
  (forall rq name default type_ delim value pieces,
     query_get (GET rq) name = Some value ->
     py_split value delim = Ok pieces ->
     (forall s e, type_ s = Raise e -> exists m, e = ValueError m) ->
     get_list rq name default type_ delim false = Ok (PList (list_by_spec type_ pieces))).
Proof.
  split.
  - intros default []; vm_compute; reflexivity.
  - intros rq name default type_ delim value pieces Hq Hs Hconv.
    unfold get_list. rewrite Hq, Hs. simpl.
    rewrite get_list_loop_default_tier by exact Hconv. reflexivity.
Qed.

Lemma get_list_split_trim_convert_witness :
  get_list list_request "ids" PNone int_conv "," false
  = Ok (PList (list_by_spec int_conv [" 1"; " 2"; ""; "3 "]%string)).
Proof.
  apply (proj2 get_list_split_trim_convert list_request "ids"%string PNone int_conv
           ","%string " 1, 2,,3 "%string); [reflexivity|reflexivity|].
  exact int_conv_value_error.
Defined.

Lemma bool_conv_nonempty (s : string) :
  String.eqb s EmptyString = false -> bool_conv s = Ok (PBool true).
Proof. unfold bool_conv. intros ->. reflexivity. Qed.

Lemma get_list_loop_bool (raise_on_value_error : bool) (items : list string) :
  exists n, get_list_loop bool_conv raise_on_value_error items = Ok (repeat (PBool true) n).
Proof.
  induction items as [|item items [n IH]]; [exists O; reflexivity|].
  cbn [get_list_loop].
  destruct (String.eqb (py_strip item) EmptyString) eqn:E.
  - exists n. exact IH.
  - exists (S n). rewrite (bool_conv_nonempty _ E). cbn [bind].
    rewrite IH. reflexivity.
Qed.

(** C10: with [type=bool] no conversion fails and every element is
    [True]: the retained pieces are non-empty, and [bool] of a non-empty
    string is [True], also for "false", "f" and "0". *)
Theorem get_list_bool_all_true :
  forall rq name default delim raise_on_value_error value,
    query_get (GET rq) name = Some value ->
    delim <> EmptyString ->
    exists n, get_list rq name default bool_conv delim raise_on_value_error
              = Ok (PList (repeat (PBool true) n)).
Proof.
  intros rq name default delim raise value Hq Hd.
  unfold get_list. rewrite Hq. unfold py_split.
  destruct delim as [|c delim']; [congruence|]. simpl.
  destruct (get_list_loop_bool raise
              (map sol (split_go (c :: los delim') (los value) [] O))) as [n Hn].
  exists n. rewrite Hn. reflexivity.
Qed.

Lemma get_list_bool_all_true_witness :
  get_list (mk_request [("flags", "false, f,0")]%string) "flags" PNone bool_conv "," false
  = Ok (PList [PBool true; PBool true; PBool true]) /\
  exists n, get_list (mk_request [("flags", "false, f,0")]%string) "flags" PNone
              bool_conv "," false = Ok (PList (repeat (PBool true) n)).
Proof.
  split; [vm_compute; reflexivity|].
  apply (get_list_bool_all_true (mk_request [("flags", "false, f,0")]%string)
           "flags"%string PNone ","%string false "false, f,0"%string);
    [reflexivity|discriminate].
Defined.

(** ** The boolean accessor *)

Lemma lower_char_table :
  forallb (fun n => forallb (fun x =>
      Bool.eqb (Ascii.eqb (lower_char (ascii_of_nat n)) x)
               (Ascii.eqb (ascii_of_nat n) x || Ascii.eqb (ascii_of_nat n) (upper_ascii x)))
    (los "truefalsyno01")) (seq 0 256) = true.
Proof. vm_compute. reflexivity. Qed.

Lemma lower_char_word (c x : ascii) :
  word_char x = true ->
  Ascii.eqb (lower_char c) x = (Ascii.eqb c x || Ascii.eqb c (upper_ascii x)).
Proof.
  intros Hx. unfold word_char in Hx. apply existsb_exists in Hx as [y [Hy Hxy]].
  apply Ascii.eqb_eq in Hxy; subst y.
  pose proof lower_char_table as T. rewrite forallb_forall in T.
  assert (Hn : In (nat_of_ascii c) (seq 0 256)).
  { apply in_seq. pose proof (nat_ascii_bounded c). lia. }
  specialize (T _ Hn). rewrite forallb_forall in T. specialize (T _ Hy).
  rewrite ascii_nat_embedding in T. apply Bool.eqb_prop in T. exact T.
Qed.

Lemma lower_eqb_case_variant (s w : string) :
  forallb word_char (los w) = true ->
  String.eqb (py_lower s) w = ci_equals s w.
Proof.
  unfold ci_equals. revert w.
  induction s as [|c s IH]; intros w Hw; destruct w as [|x w]; try reflexivity.
  simpl in Hw. apply andb_prop in Hw as [Hx Hw].
  change (String.eqb (String (lower_char c) (py_lower s)) (String x w)
          = case_variant (c :: los s) (x :: los w)).
  simpl. rewrite (lower_char_word c x Hx), (IH w Hw).
  destruct ((c =? x)%char || (c =? upper_ascii x)%char); reflexivity.
Qed.

Lemma existsb_lower (value : string) (ws : list string) :
  forallb (fun w => forallb word_char (los w)) ws = true ->
  existsb (String.eqb (py_lower value)) ws = existsb (ci_equals value) ws.
Proof.
  induction ws as [|w ws IH]; [reflexivity|].
  simpl. intros H. apply andb_prop in H as [Hw Hws].
  rewrite lower_eqb_case_variant by exact Hw. f_equal. now apply IH.
Qed.

Lemma truthy_falsy_disjoint (x : string) :
  existsb (String.eqb x) truthy_words = true ->
  existsb (String.eqb x) falsy_words = false.
Proof.
  intros Ht. apply existsb_exists in Ht as [w [Hw Hx]].
  apply String.eqb_eq in Hx; subst x.
  simpl in Hw. repeat destruct Hw as [<-|Hw]; try contradiction; reflexivity.
Qed.

(** C4: a value equal, ignoring case, to one of true/t/yes/y/1 gives
    [True]; to one of false/f/no/n/0 gives [False]; any other value gives
    the default. *)
Theorem get_boolean_words :
  forall rq name default value,
    query_get (GET rq) name = Some value ->
    (existsb (ci_equals value) truthy_words = true ->
       get_boolean rq name default = Ok (PBool true)) /\
    (existsb (ci_equals value) falsy_words = true ->
       get_boolean rq name default = Ok (PBool false)) /\
    (existsb (ci_equals value) truthy_words = false ->
     existsb (ci_equals value) falsy_words = false ->
       get_boolean rq name default = Ok default).
Proof.
  intros rq name default value Hq.
  unfold get_boolean. rewrite Hq.
  rewrite !existsb_lower by reflexivity.
  split; [|split].
  - intros ->. reflexivity.
  - intros Hf. destruct (existsb (ci_equals value) truthy_words) eqn:Ht; [|now rewrite Hf].
    rewrite <- existsb_lower in Ht, Hf by reflexivity.
    apply truthy_falsy_disjoint in Ht. congruence.
  - intros -> ->. reflexivity.
Qed.

Lemma get_boolean_words_witness :
  get_boolean (mk_request [("on", "YeS")]%string) "on" PNone = Ok (PBool true).
Proof.
  apply (get_boolean_words (mk_request [("on", "YeS")]%string) "on"%string PNone
           "YeS"%string); reflexivity.
Defined.

(** ** Formatting and parsing back *)




(** *** Decimal digits *)

Lemma digit_char_spec (z : Z) :
  0 <= z < 10 -> isdigit (digit_char z) = true /\ digit_val (digit_char z) = z.
Proof.
  intros Hz. unfold digit_char, isdigit, digit_val, code.
  rewrite nat_ascii_embedding by lia.
  split.
  - apply andb_true_intro. split; apply Nat.leb_le; lia.
  - lia.
Qed.

Lemma pad_dec_length (w : nat) (n : Z) : List.length (pad_dec w n) = w.
Proof.
  revert n. induction w as [|w IH]; intros n; [reflexivity|].
  simpl. rewrite length_app, IH. simpl. lia.
Qed.

Lemma pad_dec_digits (w : nat) (n : Z) : forallb isdigit (pad_dec w n) = true.
Proof.
  revert n. induction w as [|w IH]; intros n; [reflexivity|].
  cbn [pad_dec]. rewrite forallb_app, IH. cbn [forallb].
  rewrite (proj1 (digit_char_spec (n mod 10) ltac:(apply Z.mod_pos_bound; lia))).
  reflexivity.
Qed.

Lemma mod_ten_mul (v p : Z) :
  0 < p -> v mod (10 * p) = v mod 10 + 10 * ((v / 10) mod p).
Proof.
  intros Hp. symmetry. apply Z.mod_unique with (q := (v / 10) / p).
  - pose proof (Z.mod_pos_bound v 10 ltac:(lia)).
    pose proof (Z.mod_pos_bound (v / 10) p Hp). lia.
  - pose proof (Z.div_mod v 10 ltac:(lia)).
    pose proof (Z.div_mod (v / 10) p ltac:(lia)). nia.
Qed.

Lemma pad_dec_value (w : nat) (n : Z) :
  fold_left dec_step (pad_dec w n) 0 = n mod 10 ^ Z.of_nat w.
Proof.
  revert n. induction w as [|w IH]; intros n.
  - simpl. rewrite Z.mod_1_r. reflexivity.
  - cbn [pad_dec]. rewrite fold_left_app, IH. cbn [fold_left].
    unfold dec_step.
    rewrite (proj2 (digit_char_spec (n mod 10) ltac:(apply Z.mod_pos_bound; lia))).
    rewrite Nat2Z.inj_succ, Z.pow_succ_r by lia.
    rewrite mod_ten_mul by (apply Z.pow_pos_nonneg; lia). lia.
Qed.

Lemma digit_not_space (c : ascii) : isdigit c = true -> isspace c = false.
Proof.
  destruct c as [[] [] [] [] [] [] [] []]; vm_compute; congruence.
Qed.

Lemma digits_us_all (l : list ascii) (acc : Z) :
  forallb isdigit l = true -> digits_us acc true l = Some (fold_left dec_step l acc).
Proof.
  revert acc. induction l as [|c l IH]; intros acc H; [reflexivity|].
  simpl in H. apply andb_prop in H as [Hc Hl].
  simpl. rewrite Hc. apply IH, Hl.
Qed.

Lemma drop_space_digits (l : list ascii) :
  forallb isdigit l = true -> drop_space l = l.
Proof.
  destruct l as [|c l]; [reflexivity|].
  simpl. intros H. apply andb_prop in H as [Hc _].
  rewrite (digit_not_space c Hc). reflexivity.
Qed.

Lemma strip_digits (l : list ascii) :
  forallb isdigit l = true -> strip_l l = l.
Proof.
  intros H. unfold strip_l. rewrite (drop_space_digits l H).
  rewrite drop_space_digits; [apply rev_involutive|].
  apply forallb_forall. intros x Hx. apply in_rev in Hx.
  rewrite forallb_forall in H. now apply H.
Qed.

Lemma digit_not_int_space (c : ascii) : isdigit c = true -> int_space c = false.
Proof.
  destruct c as [[] [] [] [] [] [] [] []]; vm_compute; congruence.
Qed.



Lemma count_digits_all (l : list ascii) :
  forallb isdigit l = true -> count_digits l = List.length l.
Proof.
  unfold count_digits. induction l as [|c l IH]; [reflexivity|].
  simpl. intros H. apply andb_prop in H as [Hc Hl]. rewrite Hc. simpl. now rewrite IH.
Qed.


(** *** The regular expression on formatted text *)
















Lemma valid_bounds (d : datetime) :
  valid_datetime d = true ->
  1 <= dt_year d <= 9999 /\ 1 <= dt_month d <= 12 /\
  1 <= dt_day d <= days_in_month (dt_year d) (dt_month d) /\
  0 <= dt_hour d <= 23 /\ 0 <= dt_minute d <= 59 /\ 0 <= dt_second d <= 59 /\
  0 <= dt_microsecond d <= 999999.
Proof.
  unfold valid_datetime. intros H.
  repeat match goal with
         | H : (_ && _) = true |- _ => apply andb_prop in H as [? ?]
         | H : (_ <=? _) = true |- _ => apply Z.leb_le in H
         end.
  repeat split; assumption.
Qed.







(** *** The fields read back *)











(** * Further properties of the accessors and the parser *)

(** ** Default and strict tiers *)

Lemma py_int_raises_value_error (s : string) (e : exn) :
  py_int s = Raise e -> exists m, e = ValueError m.
Proof.
  unfold py_int.
  destruct (parse_signed (int_strip (los s)));
    [destruct (count_digits (los s) <=? int_max_str_digits)%nat|]; intros H;
    try discriminate; injection H as <-; eexists; reflexivity.
Qed.

(** [get_int]: the default tier never raises; the strict tier returns what
    the default tier returns, or raises a [ValueError] exactly where the
    default tier gives the default. *)
Theorem get_int_tiers :
  forall rq name default value,
    query_get (GET rq) name = Some value ->
    (exists v, get_int rq name default false = Ok v) /\
    (forall v, get_int rq name default true = Ok v -> get_int rq name default false = Ok v) /\
    (forall e, get_int rq name default true = Raise e ->
       (exists m, e = ValueError m) /\ get_int rq name default false = Ok default).
Proof.
  intros rq name default value Hq. unfold get_int. rewrite Hq.
  destruct (py_int value) as [z|e] eqn:Hi.
  - split; [eexists; reflexivity|]. split; [tauto|]. intros e' H; discriminate.
  - destruct (py_int_raises_value_error value e Hi) as [m ->].
    split; [eexists; reflexivity|]. split; [intros v H; discriminate|].
    intros e' H. injection H as <-. split; [eexists; reflexivity|reflexivity].
Qed.

Lemma get_int_tiers_witness :
  (exists v, get_int int_request "x" PNone false = Ok v) /\
  (forall v, get_int int_request "x" PNone true = Ok v -> get_int int_request "x" PNone false = Ok v) /\
  (forall e, get_int int_request "x" PNone true = Raise e ->
     (exists m, e = ValueError m) /\ get_int int_request "x" PNone false = Ok PNone).
Proof. apply (get_int_tiers int_request "x"%string PNone "4.2"%string). reflexivity. Defined.

(** [get_datetime]: where the strict tier returns, the default tier returns
    the same; a [ValueError] of the strict tier is the default in the
    default tier; any other exception is raised by both tiers. *)
Theorem get_datetime_tiers :
  forall rq name default format align aware value,
    query_get (GET rq) name = Some value ->
    (forall v, get_datetime rq name default format align aware true = Ok v ->
       get_datetime rq name default format align aware false = Ok v) /\
    (forall m, get_datetime rq name default format align aware true = Raise (ValueError m) ->
       get_datetime rq name default format align aware false = Ok default) /\
    (forall e, get_datetime rq name default format align aware false = Raise e ->
       get_datetime rq name default format align aware true = Raise e /\
       forall m, e <> ValueError m).
Proof.
  intros rq name default format align aware value Hq. unfold get_datetime. rewrite Hq.
  destruct (parser_datetime value format align aware) as [d|[m|m|]];
    repeat split; intros; try discriminate; try congruence; auto.
Qed.

Lemma get_datetime_tiers_witness :
  (forall v, get_datetime range_request "period" PNone default_format PNone (PBool false) true = Ok v ->
     get_datetime range_request "period" PNone default_format PNone (PBool false) false = Ok v) /\
  (forall m, get_datetime range_request "period" PNone default_format PNone (PBool false) true
               = Raise (ValueError m) ->
     get_datetime range_request "period" PNone default_format PNone (PBool false) false = Ok PNone) /\
  (forall e, get_datetime range_request "period" PNone default_format PNone (PBool false) false
               = Raise e ->
     get_datetime range_request "period" PNone default_format PNone (PBool false) true = Raise e /\
     forall m, e <> ValueError m).
Proof.
  apply (get_datetime_tiers range_request "period"%string PNone default_format PNone (PBool false)
           "2024-01-01 10:00:00,2024-01-31 10:00:00"%string).
  reflexivity.
Defined.

(** [get_datetime_range]: where the strict tier returns, the default tier
    returns the same; where the default tier gives the pair of defaults
    for a present value, the strict tier raises a [ValueError], as long as
    the default is not itself a datetime. *)
Theorem get_datetime_range_tiers :
  forall rq name default format delim align aware value,
    query_get (GET rq) name = Some value ->
    (forall d, default <> PDatetime d) ->
    (forall v, get_datetime_range rq name default format delim align aware true = Ok v ->
       get_datetime_range rq name default format delim align aware false = Ok v) /\
    (get_datetime_range rq name default format delim align aware false
       = Ok (PTuple [default; default]) ->
     exists m, get_datetime_range rq name default format delim align aware true
               = Raise (ValueError m)).
Proof.
  intros rq name default format delim align aware value Hq Hd.
  unfold get_datetime_range. rewrite Hq.
  destruct (negb (py_contains value delim)); [split; [discriminate|eauto]|].
  destruct (py_split value delim) as [parts|e]; cbn [bind]; [|split; discriminate].
  destruct parts as [|sv [|ev [|x rest]]]; try (split; discriminate).
  destruct (parser_datetime sv format align aware) as [s|[m|m|]];
    [|split; [discriminate|eauto]|split; discriminate|split; discriminate].
  destruct (parser_datetime ev format align aware) as [e|[m|m|]];
    [|split; [discriminate|eauto]|split; discriminate|split; discriminate].
  split; [tauto|]. intros H. injection H as H1 H2.
  exfalso. exact (Hd s (eq_sym H1)).
Qed.

Lemma get_datetime_range_tiers_witness :
  (forall v, get_datetime_range range_request "period" PNone default_format "," PNone (PBool false) true = Ok v ->
     get_datetime_range range_request "period" PNone default_format "," PNone (PBool false) false = Ok v) /\
  (get_datetime_range range_request "period" PNone default_format "," PNone (PBool false) false
     = Ok (PTuple [PNone; PNone]) ->
   exists m, get_datetime_range range_request "period" PNone default_format "," PNone (PBool false) true
             = Raise (ValueError m)).
Proof.
  apply (get_datetime_range_tiers range_request "period"%string PNone default_format ","%string
           PNone (PBool false) "2024-01-01 10:00:00,2024-01-31 10:00:00"%string).
  - reflexivity.
  - intros d H; discriminate.
Defined.

(** ** Missing and empty delimiters *)

Lemma py_contains_empty (value : string) : py_contains value "" = true.
Proof. unfold py_contains. destruct (los value); reflexivity. Qed.

(** An empty delimiter: [get_list] and [get_datetime_range] raise
    [ValueError("empty separator")] from [str.split] for every present
    value, in both tiers (for the range, [""] is in every string, so the
    missing-delimiter check passes). *)
Theorem empty_delim_raises :
  forall rq name default type_ format align aware raise_on_value_error value,
    query_get (GET rq) name = Some value ->
    get_list rq name default type_ "" raise_on_value_error
      = Raise (ValueError "empty separator") /\
    get_datetime_range rq name default format "" align aware raise_on_value_error
      = Raise (ValueError "empty separator").
Proof.
  intros rq name default type_ format align aware raise_on_value_error value Hq.
  unfold get_list, get_datetime_range. rewrite Hq, py_contains_empty.
  split; reflexivity.
Qed.

Lemma empty_delim_raises_witness :
  get_list list_request "ids" PNone int_conv "" false = Raise (ValueError "empty separator") /\
  get_datetime_range range_request "period" PNone default_format "" PNone (PBool false) false
    = Raise (ValueError "empty separator").
Proof.
  destruct (empty_delim_raises list_request "ids"%string PNone int_conv default_format
              PNone (PBool false) false " 1, 2,,3 "%string ltac:(reflexivity)) as [H1 _].
  split; [exact H1|].
  apply (empty_delim_raises range_request "period"%string PNone int_conv default_format
           PNone (PBool false) false "2024-01-01 10:00:00,2024-01-31 10:00:00"%string).
  reflexivity.
Defined.

(** ** What the datetime parser returns *)

Lemma datetime_new_ok (y mo dd h mi s us : Z) (d : datetime) :
  datetime_new y mo dd h mi s us = Ok d ->
  valid_datetime d = true /\ dt_aware d = false /\
  d = mk_datetime y mo dd h mi s us false.
Proof.
  unfold datetime_new.
  destruct (valid_datetime (mk_datetime y mo dd h mi s us false)) eqn:E; [|discriminate].
  intros H. injection H as <-. auto.
Qed.

Lemma build_ok (cs : list (dir * list ascii)) (d : datetime) :
  build cs = Ok d -> valid_datetime d = true /\ dt_aware d = false.
Proof.
  unfold build.
  destruct (field cs DY 1900); cbn [bind]; [|discriminate].
  destruct (field cs Dm 1); cbn [bind]; [|discriminate].
  destruct (field cs Dd 1); cbn [bind]; [|discriminate].
  destruct (field cs DH 0); cbn [bind]; [|discriminate].
  destruct (field cs DM 0); cbn [bind]; [|discriminate].
  destruct (field cs DS 0); cbn [bind]; [|discriminate].
  destruct (fraction cs); cbn [bind]; [|discriminate].
  intros H. destruct (datetime_new_ok _ _ _ _ _ _ _ _ H) as [? [? _]]. auto.
Qed.

(** With a format made of literal characters, [%%] and the directives
    %Y %m %d %H %M %S %f, [datetime.strptime] returns valid, naive
    timestamps only. *)
Theorem strptime_valid_naive :
  forall value format ts d,
    lex (los format) = Ok ts ->
    py_strptime value format = Ok d ->
    valid_datetime d = true /\ dt_aware d = false.
Proof.
  intros value format ts d Hlex. unfold py_strptime, strptime_l.
  rewrite Hlex. cbn [bind].
  destruct (has_dup (dirs_of ts)); [discriminate|].
  destruct (match_pieces (compile_go false ts) (los value)) as [[cs [|c r]]|];
    [apply build_ok|discriminate|discriminate].
Qed.

Lemma strptime_valid_naive_witness :
  py_strptime "2024-01-05 13:45:22" default_format = Ok (mk_datetime 2024 1 5 13 45 22 0 false) /\
  valid_datetime (mk_datetime 2024 1 5 13 45 22 0 false) = true /\
  dt_aware (mk_datetime 2024 1 5 13 45 22 0 false) = false.
Proof.
  assert (H : py_strptime "2024-01-05 13:45:22" default_format
              = Ok (mk_datetime 2024 1 5 13 45 22 0 false)) by (vm_compute; reflexivity).
  split; [exact H|].
  exact (strptime_valid_naive "2024-01-05 13:45:22" default_format [TDir DY; TLit "-"; TDir Dm; TLit "-"; TDir Dd; TSp " "; TDir DH;
                                   TLit ":"; TDir DM; TLit ":"; TDir DS] _ eq_refl H).
Defined.

Lemma valid_replace_hms (p : datetime) (h mi s : Z) :
  valid_datetime p = true -> 0 <= h <= 23 -> 0 <= mi <= 59 -> 0 <= s <= 59 ->
  valid_datetime (replace_hms p h mi s) = true.
Proof.
  intros Hv Hh Hmi Hs. pose proof (valid_bounds p Hv) as B.
  unfold valid_datetime, replace_hms; cbn [dt_year dt_month dt_day dt_hour dt_minute dt_second dt_microsecond].
  repeat rewrite Bool.andb_true_iff. rewrite !Z.leb_le. lia.
Qed.

(** With a format made of literal characters, [%%] and the directives
    %Y %m %d %H %M %S %f, [parser_datetime] succeeds exactly when
    [strptime] does (its other steps never fail on a parsed value) and
    raises what [strptime] raises; its result is a valid timestamp, aware
    exactly when [aware] is truthy, with the date and microsecond of the
    parsed value. *)
Theorem parser_datetime_result :
  forall value format ts align aware,
    lex (los format) = Ok ts ->
    (forall e, py_strptime value format = Raise e ->
       parser_datetime value format align aware = Raise e) /\
    (forall p, py_strptime value format = Ok p ->
       exists d, parser_datetime value format align aware = Ok d /\
         valid_datetime d = true /\ dt_aware d = py_truthy aware /\
         dt_year d = dt_year p /\ dt_month d = dt_month p /\
         dt_day d = dt_day p /\ dt_microsecond d = dt_microsecond p).
Proof.
  intros value format ts align aware Hlex. split.
  - intros e H. unfold parser_datetime. rewrite H. reflexivity.
  - intros p H. destruct (strptime_valid_naive _ _ _ _ Hlex H) as [Hv Ha].
    unfold parser_datetime. rewrite H. cbn [bind].
    set (q := if py_eq_str align "start" then replace_hms p 0 0 0
              else if py_eq_str align "end" then replace_hms p 23 59 59 else p).
    assert (Hq : valid_datetime q = true /\ dt_aware q = false /\
                 dt_year q = dt_year p /\ dt_month q = dt_month p /\
                 dt_day q = dt_day p /\ dt_microsecond q = dt_microsecond p).
    { subst q. destruct (py_eq_str align "start");
        [|destruct (py_eq_str align "end")];
        (split; [try (apply valid_replace_hms; [exact Hv|lia..]); exact Hv|]);
        cbn [replace_hms dt_aware dt_year dt_month dt_day dt_microsecond]; auto. }
    destruct Hq as [Hqv [Hqa Hqf]].
    destruct (py_truthy aware).
    + unfold make_aware. rewrite Hqa.
      eexists. split; [reflexivity|].
      split; [destruct q; exact Hqv|]. split; [reflexivity|]. exact Hqf.
    + eexists. split; [reflexivity|]. rewrite Hqa. auto.
Qed.

Lemma parser_datetime_result_witness :
  exists d, parser_datetime "2024-01-05 13:45:22" default_format (PStr "end") (PBool true) = Ok d /\
    valid_datetime d = true /\ dt_aware d = true /\
    dt_year d = 2024 /\ dt_month d = 1 /\ dt_day d = 5 /\ dt_microsecond d = 0.
Proof.
  apply (proj2 (parser_datetime_result "2024-01-05 13:45:22" default_format
                  [TDir DY; TLit "-"; TDir Dm; TLit "-"; TDir Dd; TSp " "; TDir DH;
                   TLit ":"; TDir DM; TLit ":"; TDir DS] (PStr "end") (PBool true) eq_refl)
           (mk_datetime 2024 1 5 13 45 22 0 false)).
  vm_compute. reflexivity.
Defined.

(** With a format made of literal characters, [%%] and the directives
    %Y %m %d %H %M %S %f, an [align] other than the strings "start" and
    "end" (for instance [True]) leaves the parsed time as it is: the naive
    part of the result is what [strptime] returned. *)
Theorem parser_datetime_other_align :
  forall value format ts align aware d,
    lex (los format) = Ok ts ->
    py_eq_str align "start" = false -> py_eq_str align "end" = false ->
    parser_datetime value format align aware = Ok d ->
    py_strptime value format = Ok (naive d).
Proof.
  intros value format ts align aware d Hlex Hs He H.
  destruct (parser_datetime_naive _ _ _ _ _ H) as [p [Hp Hn]].
  rewrite Hs, He in Hn. rewrite Hp, Hn.
  destruct (strptime_valid_naive _ _ _ _ Hlex Hp) as [_ Ha].
  destruct p; cbn in Ha; subst; reflexivity.
Qed.

Lemma parser_datetime_other_align_witness :
  py_strptime "2024-01-05 13:45:22" default_format
    = Ok (naive (mk_datetime 2024 1 5 13 45 22 0 true)).
Proof.
  apply (parser_datetime_other_align "2024-01-05 13:45:22" default_format
           [TDir DY; TLit "-"; TDir Dm; TLit "-"; TDir Dd; TSp " "; TDir DH;
            TLit ":"; TDir DM; TLit ":"; TDir DS] (PBool true) (PBool true)).
  - reflexivity.
  - reflexivity.
  - reflexivity.
  - vm_compute. reflexivity.
Defined.

(** ** The list accessor *)

Lemma get_list_loop_strict_ok (type_ : converter) (items : list string) (l : list pyval) :
  get_list_loop type_ true items = Ok l -> get_list_loop type_ false items = Ok l.
Proof.
  revert l. induction items as [|item items IH]; intros l H; [exact H|].
  cbn [get_list_loop] in *.
  destruct (String.eqb (py_strip item) EmptyString); [now apply IH|].
  destruct (type_ (py_strip item)) as [v|[m|m|]]; try exact H.
  - destruct (get_list_loop type_ true items) as [r|e] eqn:E; cbn [bind] in H; [|discriminate].
    rewrite (IH r eq_refl). exact H.
  - discriminate.
Qed.

Lemma get_list_loop_strict_raise (type_ : converter) (items : list string) (m : string) :
  get_list_loop type_ true items = Raise (ValueError m) ->
  exists item, In item items /\ py_strip item <> EmptyString /\
               type_ (py_strip item) = Raise (ValueError m).
Proof.
  induction items as [|item items IH]; intros H; [discriminate|].
  cbn [get_list_loop] in H.
  destruct (String.eqb (py_strip item) EmptyString) eqn:Ee.
  - destruct (IH H) as [x [Hx Hr]]. exists x. split; [now right|exact Hr].
  - apply String.eqb_neq in Ee.
    destruct (type_ (py_strip item)) as [v|[m'|m'|]] eqn:Et.
    + destruct (get_list_loop type_ true items) as [r|e] eqn:E; cbn [bind] in H; [discriminate|].
      injection H as ->. destruct (IH eq_refl) as [x [Hx Hr]].
      exists x. split; [now right|exact Hr].
    + injection H as ->. exists item. split; [now left|]. split; [exact Ee|exact Et].
    + discriminate.
    + discriminate.
Qed.

(** [get_list]: where the strict tier returns, the default tier returns
    the same list; a [ValueError] of the strict tier comes from
    [str.split] or is the one the converter raised on a non-empty
    trimmed piece. *)
Theorem get_list_tiers :
  forall rq name default type_ delim value,
    query_get (GET rq) name = Some value ->
    (forall v, get_list rq name default type_ delim true = Ok v ->
       get_list rq name default type_ delim false = Ok v) /\
    (forall m, get_list rq name default type_ delim true = Raise (ValueError m) ->
       py_split value delim = Raise (ValueError m) \/
       exists items item, py_split value delim = Ok items /\ In item items /\
         py_strip item <> EmptyString /\ type_ (py_strip item) = Raise (ValueError m)).
Proof.
  intros rq name default type_ delim value Hq. unfold get_list. rewrite Hq.
  destruct (py_split value delim) as [items|e]; cbn [bind];
    [|split; [intros v H; discriminate|intros m H; left; injection H as ->; reflexivity]].
  split.
  - intros v H.
    destruct (get_list_loop type_ true items) as [l|e] eqn:E; cbn [bind] in H; [|discriminate].
    rewrite (get_list_loop_strict_ok _ _ _ E). exact H.
  - intros m H. right.
    destruct (get_list_loop type_ true items) as [l|e] eqn:E; cbn [bind] in H; [discriminate|].
    injection H as ->. destruct (get_list_loop_strict_raise _ _ _ E) as [x Hx].
    exists items, x. split; [reflexivity|exact Hx].
Qed.

Lemma get_list_tiers_witness :
  (forall v, get_list list_request "ids" PNone int_conv "," true = Ok v ->
     get_list list_request "ids" PNone int_conv "," false = Ok v) /\
  (forall m, get_list list_request "ids" PNone int_conv "," true = Raise (ValueError m) ->
     py_split " 1, 2,,3 " "," = Raise (ValueError m) \/
     exists items item, py_split " 1, 2,,3 " "," = Ok items /\ In item items /\
       py_strip item <> EmptyString /\ int_conv (py_strip item) = Raise (ValueError m)).
Proof.
  apply (get_list_tiers list_request "ids"%string PNone int_conv ","%string " 1, 2,,3 "%string).
  reflexivity.
Defined.

(** *** [str.strip] is idempotent *)

Lemma drop_space_suffix (l : list ascii) : exists p, l = p ++ drop_space l.
Proof.
  induction l as [|c l [p IH]]; [exists []; reflexivity|].
  simpl. destruct (isspace c).
  - exists (c :: p). simpl. f_equal. exact IH.
  - exists []. reflexivity.
Qed.

Lemma drop_space_head (l : list ascii) :
  drop_space l = [] \/ exists c r, drop_space l = c :: r /\ isspace c = false.
Proof.
  induction l as [|c l IH]; [now left|].
  simpl. destruct (isspace c) eqn:E; [exact IH|right; eauto].
Qed.

Lemma drop_space_idem (l : list ascii) : drop_space (drop_space l) = drop_space l.
Proof.
  destruct (drop_space_head l) as [E|[c [r [E Hc]]]]; rewrite E; [reflexivity|].
  simpl. rewrite Hc. reflexivity.
Qed.

Lemma strip_l_idem (l : list ascii) : strip_l (strip_l l) = strip_l l.
Proof.
  unfold strip_l.
  set (A := drop_space l). set (B := drop_space (rev A)).
  assert (HB : drop_space (rev B) = rev B).
  { destruct (drop_space_suffix (rev A)) as [p Hp]. fold B in Hp.
    assert (HA : A = rev B ++ rev p)
      by (rewrite <- (rev_involutive A), Hp, rev_app_distr; reflexivity).
    destruct (rev B) as [|c r] eqn:E; [reflexivity|].
    destruct (drop_space_head l) as [E0|[c' [r' [E' Hc]]]].
    - fold A in E0. rewrite E0 in HA. discriminate.
    - fold A in E'. rewrite E' in HA. injection HA as -> _.
      simpl. rewrite Hc. reflexivity. }
  rewrite HB, rev_involutive. subst B. rewrite drop_space_idem. reflexivity.
Qed.

Lemma py_strip_idem (s : string) : py_strip (py_strip s) = py_strip s.
Proof. unfold py_strip. rewrite los_sol, strip_l_idem. reflexivity. Qed.

Lemma get_list_loop_str (raise_on_value_error : bool) (items : list string) :
  exists l, get_list_loop str_conv raise_on_value_error items = Ok l /\
    Forall (fun v => exists s, v = PStr s /\ s <> EmptyString /\ py_strip s = s) l.
Proof.
  induction items as [|item items [l [IH HF]]]; [exists []; split; constructor|].
  cbn [get_list_loop].
  destruct (String.eqb (py_strip item) EmptyString) eqn:Ee; [exists l; auto|].
  apply String.eqb_neq in Ee.
  change (str_conv (py_strip item)) with (@Ok pyval (PStr (py_strip item))).
  rewrite IH. cbn [bind].
  eexists. split; [reflexivity|]. constructor; [|exact HF].
  exists (py_strip item). split; [reflexivity|]. split; [exact Ee|apply py_strip_idem].
Qed.

(** [get_list] with [type=str] and a non-empty delimiter never raises; it
    returns a list of non-empty strings with no surrounding whitespace. *)
Theorem get_list_str_pieces :
  forall rq name default delim raise_on_value_error value,
    query_get (GET rq) name = Some value -> delim <> EmptyString ->
    exists l, get_list rq name default str_conv delim raise_on_value_error = Ok (PList l) /\
      Forall (fun v => exists s, v = PStr s /\ s <> EmptyString /\ py_strip s = s) l.
Proof.
  intros rq name default delim raise_on_value_error value Hq Hd.
  unfold get_list. rewrite Hq. unfold py_split.
  destruct delim as [|c delim]; [contradiction|]. cbn [los list_ascii_of_string bind].
  destruct (get_list_loop_str raise_on_value_error
              (map sol (split_go (c :: los delim) (los value) [] O))) as [l [E HF]].
  rewrite E. exists l. split; [reflexivity|exact HF].
Qed.

Lemma get_list_str_pieces_witness :
  exists l, get_list list_request "ids" PNone str_conv "," true = Ok (PList l) /\
    Forall (fun v => exists s, v = PStr s /\ s <> EmptyString /\ py_strip s = s) l.
Proof.
  apply (get_list_str_pieces list_request "ids"%string PNone ","%string true " 1, 2,,3 "%string).
  - reflexivity.
  - discriminate.
Defined.

(** ** Integers accepted by [get_int] *)

Lemma drop_int_space_spaces (sp l : list ascii) :
  forallb int_space sp = true -> drop_int_space (sp ++ l) = drop_int_space l.
Proof.
  induction sp as [|c sp IH]; intros H; [reflexivity|].
  simpl in H. apply andb_prop in H as [Hc H]. simpl. rewrite Hc. now apply IH.
Qed.

Lemma drop_int_space_nonspace (c : ascii) (l : list ascii) :
  int_space c = false -> drop_int_space (c :: l) = c :: l.
Proof. intros Hc. simpl. rewrite Hc. reflexivity. Qed.

(** [int()]'s stripping removes exactly the whitespace around a text that
    starts and ends with a character it does not skip. *)
Lemma int_strip_framed (sp1 x sp2 : list ascii) (c c' : ascii) (r r' : list ascii) :
  forallb int_space sp1 = true -> forallb int_space sp2 = true ->
  x = c :: r -> int_space c = false -> rev x = c' :: r' -> int_space c' = false ->
  int_strip (sp1 ++ x ++ sp2) = x.
Proof.
  intros H1 H2 Ex Hc Er Hc'. unfold int_strip.
  rewrite drop_int_space_spaces by exact H1.
  replace (drop_int_space (x ++ sp2)) with (x ++ sp2)
    by (subst x; cbn [app]; rewrite drop_int_space_nonspace by exact Hc; reflexivity).
  rewrite rev_app_distr, drop_int_space_spaces.
  - rewrite Er, drop_int_space_nonspace by exact Hc'. rewrite <- Er. apply rev_involutive.
  - rewrite forallb_forall in *. intros y Hy. apply H2. now apply in_rev.
Qed.

Lemma digits_us_pad_dec (w : nat) (n : Z) :
  (1 <= w)%nat -> 0 <= n < 10 ^ Z.of_nat w -> digits_us 0 false (pad_dec w n) = Some n.
Proof.
  intros Hw Hn.
  pose proof (pad_dec_digits w n) as Hd.
  pose proof (pad_dec_length w n) as Hlen.
  destruct (pad_dec w n) as [|c l] eqn:E; [simpl in Hlen; lia|].
  simpl in Hd. apply andb_prop in Hd as [Hc Hl].
  simpl. rewrite Hc. rewrite digits_us_all by exact Hl.
  change (fold_left dec_step l (digit_val c)) with (fold_left dec_step (c :: l) 0).
  rewrite <- E, pad_dec_value, Z.mod_small by exact Hn. reflexivity.
Qed.

Lemma pad_dec_last (w : nat) (n : Z) :
  (1 <= w)%nat -> exists c r, rev (pad_dec w n) = c :: r /\ isdigit c = true.
Proof.
  destruct w as [|w]; [lia|]. intros _. cbn [pad_dec]. rewrite rev_app_distr.
  eexists; eexists. split; [reflexivity|].
  apply digit_char_spec, Z.mod_pos_bound. lia.
Qed.

Lemma count_digits_app (a b : list ascii) :
  count_digits (a ++ b) = (count_digits a + count_digits b)%nat.
Proof. unfold count_digits. rewrite filter_app, length_app. reflexivity. Qed.

Lemma count_digits_spaces (sp : list ascii) :
  forallb int_space sp = true -> count_digits sp = O.
Proof.
  unfold count_digits. induction sp as [|c sp IH]; intros H; [reflexivity|].
  simpl in H. apply andb_prop in H as [Hc H]. simpl.
  destruct (isdigit c) eqn:Ed; [rewrite (digit_not_int_space c Ed) in Hc; discriminate|].
  exact (IH H).
Qed.

(** [get_int] reads a zero-padded decimal of at most 4300 digits, with an
    optional sign and surrounding whitespace of the kinds [int()] skips,
    as its value (in both tiers). *)
Theorem get_int_padded_decimal :
  forall rq name default raise_on_value_error (sp1 sp2 sgn : list ascii) (w : nat) (n z : Z),
    forallb int_space sp1 = true -> forallb int_space sp2 = true ->
    (1 <= w)%nat -> (w <= int_max_str_digits)%nat -> 0 <= n < 10 ^ Z.of_nat w ->
    (sgn = [] /\ z = n) \/ (sgn = ["+"%char] /\ z = n) \/ (sgn = ["-"%char] /\ z = - n) ->
    query_get (GET rq) name = Some (sol (sp1 ++ sgn ++ pad_dec w n ++ sp2)) ->
    get_int rq name default raise_on_value_error = Ok (PInt z).
Proof.
  intros rq name default raise_on_value_error sp1 sp2 sgn w n z H1 H2 Hw Hmax Hn Hs Hq.
  unfold get_int. rewrite Hq. unfold py_int. rewrite los_sol.
  assert (Hsg : count_digits sgn = O)
    by (destruct Hs as [[-> _]|[[-> _]|[-> _]]]; reflexivity).
  replace (count_digits (sp1 ++ sgn ++ pad_dec w n ++ sp2) <=? int_max_str_digits)%nat with true
    by (symmetry; apply Nat.leb_le;
        rewrite !count_digits_app, (count_digits_spaces sp1 H1), (count_digits_spaces sp2 H2), Hsg,
                (count_digits_all _ (pad_dec_digits w n)), pad_dec_length; lia).
  destruct (pad_dec_last w n Hw) as [c' [r' [Er Hc']]].
  pose proof (pad_dec_digits w n) as Hd.
  pose proof (pad_dec_length w n) as Hlen.
  pose proof (digits_us_pad_dec w n Hw Hn) as Hv.
  destruct (pad_dec w n) as [|c l] eqn:E; [simpl in Hlen; lia|].
  simpl in Hd. apply andb_prop in Hd as [Hc _].
  destruct Hs as [[-> ->]|[[-> ->]|[-> ->]]].
  - rewrite app_nil_l.
    rewrite (int_strip_framed sp1 (c :: l) sp2 c c' l r' H1 H2 eq_refl
               (digit_not_int_space c Hc) Er (digit_not_int_space c' Hc')).
    unfold parse_signed.
    replace (Ascii.eqb c "-") with false
      by (destruct c as [[] [] [] [] [] [] [] []]; reflexivity || discriminate).
    replace (Ascii.eqb c "+") with false
      by (destruct c as [[] [] [] [] [] [] [] []]; reflexivity || discriminate).
    rewrite Hv. reflexivity.
  - change (["+"%char] ++ (c :: l) ++ sp2) with (("+"%char :: c :: l) ++ sp2).
    assert (Er2 : rev ("+"%char :: c :: l) = c' :: r' ++ ["+"%char])
      by (change (rev ("+"%char :: c :: l)) with (rev (c :: l) ++ ["+"%char]);
          rewrite Er; reflexivity).
    rewrite (int_strip_framed sp1 ("+"%char :: c :: l) sp2 "+"%char c' (c :: l) (r' ++ ["+"%char])
               H1 H2 eq_refl eq_refl Er2 (digit_not_int_space c' Hc')).
    unfold parse_signed. cbn -[digits_us]. rewrite Hv. reflexivity.
  - change (["-"%char] ++ (c :: l) ++ sp2) with (("-"%char :: c :: l) ++ sp2).
    assert (Er2 : rev ("-"%char :: c :: l) = c' :: r' ++ ["-"%char])
      by (change (rev ("-"%char :: c :: l)) with (rev (c :: l) ++ ["-"%char]);
          rewrite Er; reflexivity).
    rewrite (int_strip_framed sp1 ("-"%char :: c :: l) sp2 "-"%char c' (c :: l) (r' ++ ["-"%char])
               H1 H2 eq_refl eq_refl Er2 (digit_not_int_space c' Hc')).
    unfold parse_signed. cbn -[digits_us]. rewrite Hv. reflexivity.
Qed.

Lemma get_int_padded_decimal_witness :
  get_int padded_request "n" PNone true = Ok (PInt (-7)).
Proof.
  apply (get_int_padded_decimal padded_request "n"%string PNone true
           [" "%char] [" "%char] ["-"%char] 3 7 (-7)).
  - reflexivity.
  - reflexivity.
  - lia.
  - unfold int_max_str_digits. lia.
  - simpl. lia.
  - right; right; split; reflexivity.
  - vm_compute. reflexivity.
Defined.

(** ** Formatting and parsing back, beyond the full formats *)

Lemma los_append (s t : string) : los (s ++ t) = los s ++ los t.
Proof. induction s as [|c s IH]; [reflexivity|]. unfold los in *. simpl. now rewrite IH. Qed.









(** ** The range accessor on a well-formed pair *)

Lemma split_go_free (c : ascii) (l rest cur : list ascii) :
  ~ In c l -> split_go [c] (l ++ rest) cur O = split_go [c] rest (rev l ++ cur) O.
Proof.
  revert cur. induction l as [|x l IH]; intros cur Hn; [reflexivity|].
  cbn [app split_go is_prefix].
  replace (Ascii.eqb c x) with false
    by (symmetry; apply Ascii.eqb_neq; intros ->; apply Hn; now left).
  cbn [andb]. rewrite IH by (intros H; apply Hn; now right).
  cbn [rev]. rewrite <- app_assoc. reflexivity.
Qed.

Lemma split_one (c : ascii) (a b : list ascii) :
  ~ In c a -> ~ In c b -> split_go [c] (a ++ c :: b) [] O = [a; b].
Proof.
  intros Ha Hb. rewrite split_go_free by exact Ha.
  cbn [split_go is_prefix]. rewrite Ascii.eqb_refl. cbn [andb Nat.sub List.length].
  rewrite app_nil_r, rev_involutive.
  rewrite <- (app_nil_r b), split_go_free by exact Hb.
  cbn [split_go]. rewrite !app_nil_r, rev_involutive. reflexivity.
Qed.

Lemma contains_at (sub p l : list ascii) :
  is_prefix sub l = true -> contains_l sub (p ++ l) = true.
Proof.
  intros H. induction p as [|x p IH].
  - destruct l; simpl in *; rewrite H; reflexivity.
  - cbn [app contains_l]. rewrite IH. apply orb_true_r.
Qed.

(** A value [a + c + b] for a one-character delimiter [c] that occurs in
    neither half is split into its two halves; when both parse, both tiers
    return the pair of parsed timestamps, each half parsed with the same
    [align] and [aware]. *)
Theorem get_datetime_range_pair :
  forall rq name default format (c : ascii) align aware raise_on_value_error (a b : string) da db,
    query_get (GET rq) name = Some (a ++ String c EmptyString ++ b)%string ->
    ~ In c (los a) -> ~ In c (los b) ->
    parser_datetime a format align aware = Ok da ->
    parser_datetime b format align aware = Ok db ->
    get_datetime_range rq name default format (String c EmptyString) align aware
      raise_on_value_error = Ok (PTuple [PDatetime da; PDatetime db]).
Proof.
  intros rq name default format c align aware raise_on_value_error a b da db Hq Ha Hb Pa Pb.
  unfold get_datetime_range. rewrite Hq.
  assert (Hl : los (a ++ String c EmptyString ++ b)%string = los a ++ c :: los b)
    by (rewrite !los_append; reflexivity).
  unfold py_contains. rewrite Hl.
  change (los (String c EmptyString)) with [c].
  rewrite contains_at by (cbn [is_prefix]; rewrite Ascii.eqb_refl; reflexivity).
  cbn [negb]. unfold py_split. change (los (String c EmptyString)) with [c].
  rewrite Hl, split_one by assumption. cbn [map bind].
  unfold sol, los. rewrite !string_of_list_ascii_of_string.
  rewrite Pa, Pb. reflexivity.
Qed.

Lemma get_datetime_range_pair_witness :
  get_datetime_range range_request "period" PNone default_format "," PNone (PBool false) true
    = Ok (PTuple [PDatetime (mk_datetime 2024 1 1 10 0 0 0 false);
                  PDatetime (mk_datetime 2024 1 31 10 0 0 0 false)]).
Proof.
  apply (get_datetime_range_pair range_request "period"%string PNone default_format ","%char
           PNone (PBool false) true "2024-01-01 10:00:00"%string "2024-01-31 10:00:00"%string).
  - reflexivity.
  - intros H. simpl in H. repeat (destruct H as [H|H]; [discriminate H|]). exact H.
  - intros H. simpl in H. repeat (destruct H as [H|H]; [discriminate H|]). exact H.
  - vm_compute. reflexivity.
  - vm_compute. reflexivity.
Defined.

(** ** Errors that are not [ValueError] *)

Lemma parser_datetime_dup (value format : string) (ts : list tok) align aware :
  lex (los format) = Ok ts -> has_dup (dirs_of ts) = true ->
  parser_datetime value format align aware = Raise (ReError "redefinition of group name").
Proof.
  intros Hlex Hd. unfold parser_datetime, py_strptime, strptime_l.
  rewrite Hlex. cbn [bind]. rewrite Hd. reflexivity.
Qed.

(** A format made of literal characters, [%%] and the directives
    %Y %m %d %H %M %S %f that repeats a directive makes [strptime] raise
    [re.error], which is not a [ValueError]: [get_datetime] raises it for
    every present value, and [get_datetime_range] for every present value
    that splits into two halves, in both tiers. *)
Theorem dup_directive_escapes :
  forall rq name default format ts align aware raise_on_value_error value,
    query_get (GET rq) name = Some value ->
    lex (los format) = Ok ts -> has_dup (dirs_of ts) = true ->
    (exists m, get_datetime rq name default format align aware raise_on_value_error
               = Raise (ReError m)) /\
    (forall delim a b,
       py_contains value delim = true -> py_split value delim = Ok [a; b] ->
       exists m, get_datetime_range rq name default format delim align aware raise_on_value_error
                 = Raise (ReError m)).
Proof.
  intros rq name default format ts align aware raise_on_value_error value Hq Hlex Hd.
  split.
  - unfold get_datetime. rewrite Hq, (parser_datetime_dup value format ts align aware Hlex Hd).
    eexists; reflexivity.
  - intros delim a b Hc Hs. unfold get_datetime_range. rewrite Hq, Hc, Hs. cbn [negb bind].
    rewrite (parser_datetime_dup a format ts align aware Hlex Hd). eexists; reflexivity.
Qed.

Lemma dup_directive_escapes_witness :
  (exists m, get_datetime range_request "period" PNone "%Y%Y" PNone (PBool false) false
             = Raise (ReError m)) /\
  (forall delim a b,
     py_contains "2024-01-01 10:00:00,2024-01-31 10:00:00" delim = true ->
     py_split "2024-01-01 10:00:00,2024-01-31 10:00:00" delim = Ok [a; b] ->
     exists m, get_datetime_range range_request "period" PNone "%Y%Y" delim PNone (PBool false) false
               = Raise (ReError m)).
Proof.
  apply (dup_directive_escapes range_request "period"%string PNone "%Y%Y"%string [TDir DY; TDir DY]
           PNone (PBool false) false "2024-01-01 10:00:00,2024-01-31 10:00:00"%string);
    reflexivity.
Defined.

(** ** Whitespace in the format *)



